(** * The [/squareme] handler of [http_server.py]

    A shallow embedding of the single Flask view function [get] and of the
    library calls it makes ([request.args.get], [int(val, 10)],
    [random.randint], [time.sleep], [jsonify], [print]), followed by the
    properties of the handler.

    Conventions of the model:
    - a Python [str] is a [string] of ASCII characters; code points above 127,
      for which CPython additionally consults the Unicode whitespace and
      decimal-digit tables, are outside the model;
    - a Python [int] is a [Z] (arbitrary precision, no wrap-around); the
      optional cap of recent interpreters on the number of digits of an
      int/str conversion ([sys.set_int_max_str_digits]) is taken as disabled;
    - the effects of a run (random draws, sleeping, printing) are threaded
      through a state-and-exception monad and recorded, in order, in a trace. *)

From Stdlib Require Import ZArith List String Ascii Bool Lia QArith.
From Stdlib Require Import Decimal DecimalString DecimalFacts DecimalPos.

Set Warnings "-register-all".
Import ListNotations.

Local Open Scope string_scope.
Local Open Scope Z_scope.

(** ** Python values and builtins *)

Module Py.

(** The two exceptions [int(val, 10)] can raise. *)
Inductive exn : Type :=
| TypeError_int_nonstring_base
    (* int() can't convert non-string with explicit base *)
| ValueError_invalid_literal (lit : string).
    (* invalid literal for int() with base 10: <repr lit> *)

(** What evaluating an expression or a block gives. *)
Inductive outcome (A : Type) : Type :=
| Returns (a : A)
| Raises (e : exn).
Arguments Returns {A} a.
Arguments Raises {A} e.

(** [Py_ISSPACE]: tab, line feed, vertical tab, form feed, carriage return
    and space. *)
Definition Py_ISSPACE (c : ascii) : bool :=
  let n := N_of_ascii c in
  ((9 <=? n)%N && (n <=? 13)%N) || (n =? 32)%N.

(** [_PyLong_DigitValue]: the value of a character as a digit, 37 for a
    character that is no digit in any base. *)
Definition PyLong_DigitValue (c : ascii) : Z :=
  let n := Z.of_N (N_of_ascii c) in
  if (48 <=? n) && (n <=? 57) then n - 48
  else if (97 <=? n) && (n <=? 122) then n - 87
  else if (65 <=? n) && (n <=? 90) then n - 55
  else 37.

Definition underscore : ascii := "_"%char.

Fixpoint skip_space (s : string) : string :=
  match s with
  | String c s' => if Py_ISSPACE c then skip_space s' else s
  | EmptyString => s
  end.

(** The digit loop of [long_from_string_base] at base 10: digits and
    underscores are consumed, [prev] is the character consumed last ([None]
    before the first).  A doubled or trailing underscore is an error; on
    success the value of the digits (added to [acc], most significant first)
    and the unread text are returned. *)
Fixpoint scan_digits (prev : option ascii) (acc : Z) (s : string)
  : option (Z * string) :=
  let stop :=
    if match prev with Some p => Ascii.eqb p underscore | None => false end
    then None else Some (acc, s) in
  match s with
  | String c s' =>
      if Ascii.eqb c underscore then
        match prev with
        | Some p => if Ascii.eqb p underscore then None
                    else scan_digits (Some c) acc s'
        | None => scan_digits (Some c) acc s'
        end
      else if PyLong_DigitValue c <? 10 then
        scan_digits (Some c) (acc * 10 + PyLong_DigitValue c) s'
      else stop
  | EmptyString => stop
  end.

(** [long_from_string_base]: no leading underscore, at least one
    character consumed. *)
Definition long_from_string_base (s : string) : option (Z * string) :=
  match s with
  | String c _ =>
      if Ascii.eqb c underscore then None
      else match scan_digits None 0 s with
           | Some (z, rest) =>
               if (String.length rest =? String.length s)%nat then None
               else Some (z, rest)
           | None => None
           end
  | EmptyString => None
  end.

(** [PyLong_FromString(s, &end, 10)] followed by the test that the whole
    text was read: leading whitespace, an optional sign, the digits,
    trailing whitespace, end of text. *)
Definition PyLong_FromString (s : string) : option Z :=
  let s1 := skip_space s in
  let '(negative, s2) :=
    match s1 with
    | String "+" t => (false, t)
    | String "-" t => (true, t)
    | _ => (false, s1)
    end in
  match long_from_string_base s2 with
  | Some (z, rest) =>
      match skip_space rest with
      | EmptyString => Some (if negative then - z else z)
      | String _ _ => None
      end
  | None => None
  end.

(** [int(x, 10)] for [x] the result of [request.args.get]: a [str] or
    [None]. *)
Definition int_base10 (x : option string) : outcome Z :=
  match x with
  | None => Raises TypeError_int_nonstring_base
  | Some s =>
      match PyLong_FromString s with
      | Some z => Returns z
      | None => Raises (ValueError_invalid_literal s)
      end
  end.

End Py.

(** ** Integer literals, as grammars *)

Module IntGrammar.

Definition is_decimal_digit (c : ascii) : bool :=
  let n := N_of_ascii c in (48 <=? n)%N && (n <=? 57)%N.

Definition digit_value (c : ascii) : Z := Z.of_N (N_of_ascii c) - 48.

Fixpoint all_digits (s : string) : bool :=
  match s with
  | String c s' => is_decimal_digit c && all_digits s'
  | EmptyString => true
  end.

Fixpoint digits_value (acc : Z) (s : string) : Z :=
  match s with
  | String c s' => digits_value (acc * 10 + digit_value c) s'
  | EmptyString => acc
  end.

(** The grammar in the words of the specification, "an optional sign
    followed by decimal digits", with the integer such a string denotes. *)
Definition signed_decimal (s : string) : option Z :=
  let '(negative, digits) :=
    match s with
    | String "+" t => (false, t)
    | String "-" t => (true, t)
    | _ => (false, s)
    end in
  match digits with
  | EmptyString => None
  | String _ _ =>
      if all_digits digits
      then Some (if negative then - digits_value 0 digits
                 else digits_value 0 digits)
      else None
  end.

(** The wider grammar: whitespace, an optional sign, digits with single
    underscores between them, whitespace. *)
Fixpoint all_space (s : string) : bool :=
  match s with
  | String c s' => Py.Py_ISSPACE c && all_space s'
  | EmptyString => true
  end.

(** ( [_]? digit )* *)
Inductive groups_tail : string -> Prop :=
| gt_end : groups_tail EmptyString
| gt_digit (c : ascii) (s : string) :
    is_decimal_digit c = true -> groups_tail s -> groups_tail (String c s)
| gt_sep (c : ascii) (s : string) :
    is_decimal_digit c = true -> groups_tail s ->
    groups_tail (String Py.underscore (String c s)).

(** digit ( [_]? digit )* *)
Inductive digit_groups : string -> Prop :=
| dg_intro (c : ascii) (s : string) :
    is_decimal_digit c = true -> groups_tail s -> digit_groups (String c s).

(** The value of the digits of [s], underscores passed over. *)
Fixpoint literal_value (acc : Z) (s : string) : Z :=
  match s with
  | String c s' =>
      if Ascii.eqb c Py.underscore then literal_value acc s'
      else literal_value (acc * 10 + digit_value c) s'
  | EmptyString => acc
  end.

Inductive sign : Type := NoSign | Plus | Minus.

Definition sign_text (sg : sign) : string :=
  match sg with NoSign => EmptyString | Plus => "+" | Minus => "-" end.

Definition apply_sign (sg : sign) (z : Z) : Z :=
  match sg with Minus => - z | _ => z end.

Definition int_literal (s : string) (z : Z) : Prop :=
  exists (lead : string) (sg : sign) (body trail : string),
    s = lead ++ sign_text sg ++ body ++ trail /\
    all_space lead = true /\
    digit_groups body /\
    all_space trail = true /\
    z = apply_sign sg (literal_value 0 body).

(** Text of ASCII characters only. *)
Fixpoint ascii_text (s : string) : bool :=
  match s with
  | String c s' => (N_of_ascii c <? 128)%N && ascii_text s'
  | EmptyString => true
  end.

(** Text at which the digit loop stops without error: the end, or a
    character that is neither an underscore nor a digit. *)
Definition stops_scan (s : string) : Prop :=
  match s with
  | String c _ =>
      Ascii.eqb c Py.underscore = false /\ is_decimal_digit c = false
  | EmptyString => True
  end.

Definition is_underscore (prev : option ascii) : bool :=
  match prev with Some p => Ascii.eqb p Py.underscore | None => false end.

End IntGrammar.

(** ** JSON values and their text *)

Module Json.

(** The values the handler builds: an [int], a [str], or a [dict] with
    [str] keys, items in insertion order. *)
Inductive value : Type :=
| Int (z : Z)
| Str (s : string)
| Dict (items : list (string * value)).

Fixpoint lookup_items (key : string) (items : list (string * value))
  : option value :=
  match items with
  | (k, v) :: rest => if String.eqb k key then Some v else lookup_items key rest
  | [] => None
  end.

Definition lookup (key : string) (v : value) : option value :=
  match v with
  | Dict items => lookup_items key items
  | _ => None
  end.

(** [repr] of a Python [int]: decimal digits, a minus sign when negative. *)
Definition int_repr (z : Z) : string :=
  DecimalString.NilZero.string_of_int (Z.to_int z).

Definition dquote : ascii := ascii_of_N 34.
Definition backslash : ascii := ascii_of_N 92.

Definition hex_digit (n : N) : ascii :=
  ascii_of_N (if (n <? 10)%N then 48 + n else 87 + n)%N.

(** One character of a string, as [json.dumps] writes it with
    [ensure_ascii]: printable characters but the quote and the backslash as
    they are, the rest escaped. *)
Definition escape_char (c : ascii) : string :=
  let n := N_of_ascii c in
  if (n =? 34)%N then String backslash (String dquote EmptyString)
  else if (n =? 92)%N then String backslash (String backslash EmptyString)
  else if (n =? 10)%N then "\n"
  else if (n =? 13)%N then "\r"
  else if (n =? 9)%N then "\t"
  else if (n =? 8)%N then "\b"
  else if (n =? 12)%N then "\f"
  else if ((32 <=? n) && (n <=? 126))%N then String c EmptyString
  else "\u00" ++
       String (hex_digit (n / 16)) (String (hex_digit (n mod 16)) EmptyString).

Fixpoint escape (s : string) : string :=
  match s with
  | String c s' => escape_char c ++ escape s'
  | EmptyString => EmptyString
  end.

Definition quoted (s : string) : string :=
  String dquote (escape s ++ String dquote EmptyString).

(** [json.dumps(v, separators=(",", ":"))], the compact form Flask's JSON
    provider writes outside debug mode. *)
Fixpoint dumps (v : value) : string :=
  match v with
  | Int z => int_repr z
  | Str s => quoted s
  | Dict items =>
      let fix members (l : list (string * value)) : string :=
        match l with
        | [] => EmptyString
        | [(k, x)] => quoted k ++ ":" ++ dumps x
        | (k, x) :: rest => quoted k ++ ":" ++ dumps x ++ "," ++ members rest
        end in
      "{" ++ members items ++ "}"
  end.

(** *** A recogniser of JSON texts (RFC 8259)

    Each scanner takes the text at the start of a construct and returns what
    follows the construct, or [None] when the text does not start with
    one. *)















End Json.


(** ** Flask: the request, responses, [jsonify] *)

Module Flask.

(** [request.args]: the query parameters in the order of the query string;
    a key may occur more than once. *)
Record Request : Type := { args : list (string * string) }.

(** [MultiDict.get(key)]: the first value of [key], [None] when absent. *)
Fixpoint MultiDict_get (key : string) (items : list (string * string))
  : option string :=
  match items with
  | (k, v) :: rest =>
      if String.eqb k key then Some v else MultiDict_get key rest
  | [] => None
  end.

(** A response: the transport status, the content type, and the object the
    body was serialised from (what [Response.get_json()] gives back). *)
Record Response : Type := {
  status_code : Z;
  mimetype : string;
  get_json : Json.value
}.

(** The body as sent: the JSON text and a line feed. *)
Definition get_data (r : Response) : string :=
  Json.dumps (get_json r) ++ String (ascii_of_N 10) EmptyString.

(** [jsonify(obj)]: status 200, [application/json]. *)
Definition jsonify (obj : Json.value) : Response :=
  {| status_code := 200; mimetype := "application/json"; get_json := obj |}.

End Flask.

(** ** Effects *)

(** [random.randint(a, b)] on a generator state of type [G]: the integer
    drawn and the next state; for [a <= b] the integer lies in the closed
    interval from [a] to [b]. *)
Class RandomSource (G : Type) : Type := {
  randint_draw : Z -> Z -> G -> Z * G;
  randint_draw_range :
    forall a b g, a <= b -> a <= fst (randint_draw a b g) <= b
}.

(** What a run does besides computing, in the order it does it. *)
Inductive event : Type :=
| EvRandint (a b r : Z)      (* random.randint(a, b) gave r *)
| EvSleep (secs : Q)         (* time.sleep(secs) *)
| EvPrint (e : Py.exn).      (* print(e) *)

Section Handler.

Context {G : Type} {RS : RandomSource G}.

Record world : Type := { rng : G; trace : list event }.

Definition log (ev : event) (w : world) : world :=
  {| rng := rng w; trace := trace w ++ [ev] |}.

(** State and exceptions. *)
Definition M (A : Type) : Type := world -> Py.outcome A * world.

Definition ret {A} (a : A) : M A := fun w => (Py.Returns a, w).

Definition bind {A B} (m : M A) (k : A -> M B) : M B :=
  fun w =>
    match m w with
    | (Py.Returns a, w') => k a w'
    | (Py.Raises e, w') => (Py.Raises e, w')
    end.

Definition lift {A} (o : Py.outcome A) : M A := fun w => (o, w).

(** [try: body except Exception as e: handler(e)] *)
Definition try_except {A} (body : M A) (handler : Py.exn -> M A) : M A :=
  fun w =>
    match body w with
    | (Py.Returns a, w') => (Py.Returns a, w')
    | (Py.Raises e, w') => handler e w'
    end.

Definition randint (a b : Z) : M Z :=
  fun w =>
    let (r, g) := randint_draw a b (rng w) in
    (Py.Returns r, {| rng := g; trace := trace w ++ [EvRandint a b r] |}).

Definition sleep (secs : Q) : M unit :=
  fun w => (Py.Returns tt, log (EvSleep secs) w).

Definition print (e : Py.exn) : M unit :=
  fun w => (Py.Returns tt, log (EvPrint e) w).

Notation "x <- m ;; k" := (bind m (fun x => k))
  (at level 61, m at next level, right associativity).
Notation "m ;;; k" := (bind m (fun _ => k))
  (at level 61, right associativity).

(** time to live in ms *)
Definition TTL : Z := 100.

(** The view function of [/squareme].  Its result is the response, or
    [None] when the function ends without a [return]. *)
Definition get (request : Flask.Request) : M (option Flask.Response) :=
  try_except
    (val <- ret (Flask.MultiDict_get "num" (Flask.args request)) ;;
     val <- lift (Py.int_base10 val) ;;
     r <- randint 50 200 ;;
     let delay := 50 + r in
     sleep (Qmake delay 1000) ;;;
     e <- randint 0 10 ;;
     if e =? 0 then
       ret (Some (Flask.jsonify
                    (Json.Dict [("error", Json.Str "something went wrong")])))
     else
       ret (Some (Flask.jsonify
                    (Json.Dict [("msg", Json.Int (val * val));
                                ("ttl(ms)", Json.Int (TTL + delay))]))))
    (fun e => print e ;;; ret None).

(** The integers the two calls of [randint] give on a run from [w]: the
    first, for the delay, in the state of [w]; the second, for the error
    decision, in the state the first leaves. *)
Definition delay_draw (w : world) : Z :=
  fst (randint_draw 50 200 (rng w)).

Definition error_draw (w : world) : Z :=
  fst (randint_draw 0 10 (snd (randint_draw 50 200 (rng w)))).

End Handler.

(** The two shapes of a response body. *)
Definition error_payload : Json.value :=
  Json.Dict [("error", Json.Str "something went wrong")].

Definition success_payload (msg ttl : Z) : Json.value :=
  Json.Dict [("msg", Json.Int msg); ("ttl(ms)", Json.Int ttl)].

(** [{ msg: integer, "ttl(ms)": integer }] *)
Definition is_success_payload (v : Json.value) : bool :=
  match v with
  | Json.Dict [(k1, Json.Int _); (k2, Json.Int _)] =>
      String.eqb k1 "msg" && String.eqb k2 "ttl(ms)"
  | _ => false
  end.

(** [{ error: string }] *)
Definition is_error_payload (v : Json.value) : bool :=
  match v with
  | Json.Dict [(k, Json.Str _)] => String.eqb k "error"
  | _ => false
  end.

(** A scripted random source: the draws are read off a list, each brought
    into the interval asked for; an exhausted script gives the lower
    bound. *)
Definition scripted_draw (a b : Z) (script : list Z) : Z * list Z :=
  match script with
  | x :: rest => (Z.max a (Z.min b x), rest)
  | [] => (a, [])
  end.

#[export] Instance Scripted : RandomSource (list Z).
Proof.
  refine {| randint_draw := scripted_draw |}.
  intros a b [|x rest] Hab; simpl; lia.
Defined.

(** A request with the one query parameter [num], and a world whose random
    source follows a script, for running the handler on examples. *)
Definition request_num (s : string) : Flask.Request :=
  {| Flask.args := [("num", s)] |}.

Definition scripted_world (script : list Z) : world (G:=list Z) :=
  {| rng := script; trace := [] |}.

(** The integers from [a] to [b], the values [randint(a, b)] can give. *)
Definition closed_interval (a b : Z) : list Z :=
  map (fun k => a + Z.of_nat k) (seq 0 (Z.to_nat (b - a + 1))).

(** What the handler returns on [num] for each pair of draws, the first from
    50 to 200 and the second from 0 to 10. *)
Definition outcomes (num : string)
  : list (Py.outcome (option Flask.Response)) :=
  flat_map
    (fun d =>
       map (fun e => fst (get (request_num num) (scripted_world [d; e])))
           (closed_interval 0 10))
    (closed_interval 50 200).

Definition is_error_outcome (o : Py.outcome (option Flask.Response)) : bool :=
  match o with
  | Py.Returns (Some r) => is_error_payload (Flask.get_json r)
  | _ => false
  end.

(** Whether a query string has a parameter named [key]. *)
Definition has_key (key : string) (items : list (string * string)) : bool :=
  existsb (fun kv => String.eqb (fst kv) key) items.

(** Whether a text holds a decimal digit. *)
Fixpoint has_digit (s : string) : bool :=
  match s with
  | String c s' => IntGrammar.is_decimal_digit c || has_digit s'
  | EmptyString => false
  end.

(** The characters an integer literal is made of: whitespace, the two
    signs, the digits and the underscore. *)
Definition literal_char (c : ascii) : bool :=
  Py.Py_ISSPACE c || Ascii.eqb c "+" || Ascii.eqb c "-"
  || IntGrammar.is_decimal_digit c || Ascii.eqb c Py.underscore.

Fixpoint all_literal_chars (s : string) : bool :=
  match s with
  | String c s' => literal_char c && all_literal_chars s'
  | EmptyString => true
  end.

(** The durations of the sleeps of a trace, in order. *)
Fixpoint sleeps (tr : list event) : list Q :=
  match tr with
  | EvSleep secs :: rest => secs :: sleeps rest
  | _ :: rest => sleeps rest
  | [] => []
  end.

(** * Properties *)

(** ** Concatenation of strings *)


Lemma append_nil_r (a : string) : a ++ EmptyString = a.
Proof. induction a as [|x a IH]; simpl; [reflexivity | now rewrite IH]. Qed.

Lemma length_append (a b : string) :
  String.length (a ++ b) = (String.length a + String.length b)%nat.
Proof. induction a; simpl; auto. Qed.

(** ** What [int(val, 10)] accepts *)

Section IntLiterals.

Import IntGrammar.

Ltac by_cases_on_char c :=
  destruct c as [[] [] [] [] [] [] [] []]; vm_compute; intuition congruence.

Lemma digit_char (c : ascii) :
  is_decimal_digit c = true ->
  Ascii.eqb c Py.underscore = false /\
  (Py.PyLong_DigitValue c <? 10) = true /\
  Py.PyLong_DigitValue c = digit_value c /\
  Py.Py_ISSPACE c = false /\
  c <> "+"%char /\ c <> "-"%char.
Proof. by_cases_on_char c. Qed.

Lemma nondigit_char (c : ascii) :
  is_decimal_digit c = false -> (Py.PyLong_DigitValue c <? 10) = false.
Proof. by_cases_on_char c. Qed.

Lemma space_char (c : ascii) :
  Py.Py_ISSPACE c = true ->
  Ascii.eqb c Py.underscore = false /\ is_decimal_digit c = false /\
  c <> "+"%char /\ c <> "-"%char.
Proof. by_cases_on_char c. Qed.

Lemma underscore_char (c : ascii) :
  Ascii.eqb c Py.underscore = true -> c = Py.underscore.
Proof. apply Ascii.eqb_eq. Qed.

Lemma skip_space_all_space (lead rest : string) :
  all_space lead = true -> Py.skip_space (lead ++ rest) = Py.skip_space rest.
Proof.
  induction lead as [|c lead IH]; simpl; [reflexivity|].
  intros [Hc Hl]%andb_prop. rewrite Hc. auto.
Qed.

Lemma skip_space_split (s : string) :
  exists lead, s = lead ++ Py.skip_space s /\ all_space lead = true.
Proof.
  induction s as [|c s (lead & E & Hl)]; simpl.
  - exists EmptyString. auto.
  - destruct (Py.Py_ISSPACE c) eqn:Hc.
    + exists (String c lead). simpl. rewrite Hc, Hl, <- E. auto.
    + exists EmptyString. auto.
Qed.

Lemma skip_space_empty (s : string) :
  Py.skip_space s = EmptyString <-> all_space s = true.
Proof.
  induction s as [|c s IH]; simpl; [tauto|].
  destruct (Py.Py_ISSPACE c); simpl; [exact IH | split; discriminate].
Qed.

Lemma scan_digits_stop (c : ascii) (acc : Z) (rest : string) :
  Ascii.eqb c Py.underscore = false -> stops_scan rest ->
  Py.scan_digits (Some c) acc rest = Some (acc, rest).
Proof.
  intros Hc Hr. destruct rest as [|x rest]; simpl; rewrite Hc; [reflexivity|].
  destruct Hr as [-> Hx%nondigit_char]. rewrite Hx. reflexivity.
Qed.

Lemma scan_digits_groups (body rest : string) :
  groups_tail body -> stops_scan rest ->
  forall (p : ascii) (acc : Z),
    Ascii.eqb p Py.underscore = false ->
    Py.scan_digits (Some p) acc (body ++ rest)
    = Some (literal_value acc body, rest).
Proof.
  intros Hb Hr. induction Hb as [|c s Hc Hs IH|c s Hc Hs IH]; intros p acc Hp.
  - simpl. apply scan_digits_stop; assumption.
  - destruct (digit_char c Hc) as (Hu & Hlt & Hv & _).
    simpl. rewrite Hu, Hlt, Hv. apply IH. exact Hu.
  - destruct (digit_char c Hc) as (Hu & Hlt & Hv & _).
    simpl. rewrite Hp. simpl. rewrite Hu, Hlt, Hv. apply IH. exact Hu.
Qed.

Lemma all_space_stops (s : string) : all_space s = true -> stops_scan s.
Proof.
  destruct s as [|c s]; simpl; [trivial|].
  intros [Hc _]%andb_prop. destruct (space_char c Hc) as (? & ? & _). auto.
Qed.

Lemma long_from_string_base_groups (body rest : string) :
  digit_groups body -> stops_scan rest ->
  Py.long_from_string_base (body ++ rest)
  = Some (literal_value 0 body, rest).
Proof.
  intros [c s Hc Hs] Hr.
  destruct (digit_char c Hc) as (Hu & Hlt & Hv & _).
  unfold Py.long_from_string_base.
  change (String c s ++ rest) with (String c (s ++ rest)).
  cbv beta iota. rewrite Hu.
  replace (Py.scan_digits None 0 (String c (s ++ rest)))
    with (Some (literal_value 0 (String c s), rest)).
  - replace (String.length rest =? String.length (String c (s ++ rest)))%nat
      with false; [reflexivity|].
    symmetry. apply Nat.eqb_neq. simpl. rewrite length_append. lia.
  - symmetry. simpl. rewrite Hu, Hlt, Hv.
    apply scan_digits_groups; assumption.
Qed.

(** Every literal of the wider grammar parses to its value. *)
Lemma PyLong_FromString_literal (s : string) (z : Z) :
  int_literal s z -> Py.PyLong_FromString s = Some z.
Proof.
  intros (lead & sg & body & trail & -> & Hl & Hb & Ht & ->).
  unfold Py.PyLong_FromString.
  rewrite (skip_space_all_space lead _ Hl).
  pose proof (long_from_string_base_groups body trail Hb (all_space_stops _ Ht))
    as Hscan.
  assert (Htrail : Py.skip_space trail = EmptyString)
    by (apply skip_space_empty; exact Ht).
  destruct sg; simpl sign_text.
  - destruct Hb as [c b Hc Hb].
    destruct (digit_char c Hc) as (_ & _ & _ & Hsp & Hplus & Hminus).
    change (EmptyString ++ String c b ++ trail) with (String c (b ++ trail)).
    change (String c b ++ trail) with (String c (b ++ trail)) in Hscan.
    simpl Py.skip_space. rewrite Hsp.
    replace (match String c (b ++ trail) with
             | String "+" t => (false, t)
             | String "-" t => (true, t)
             | _ => (false, String c (b ++ trail))
             end) with (false, String c (b ++ trail)).
    + rewrite Hscan, Htrail. reflexivity.
    + destruct c as [[] [] [] [] [] [] [] []]; try reflexivity; congruence.
  - simpl. rewrite Hscan, Htrail. reflexivity.
  - simpl. rewrite Hscan, Htrail. reflexivity.
Qed.

Lemma scan_digits_inv (s : string) :
  forall (prev : option ascii) (acc z : Z) (rest : string),
    Py.scan_digits prev acc s = Some (z, rest) ->
    exists body,
      s = body ++ rest /\ z = literal_value acc body /\
      if is_underscore prev then digit_groups body else groups_tail body.
Proof.
  induction s as [|c s IH]; intros prev acc z rest H.
  - simpl in H. fold (is_underscore prev) in H.
    destruct (is_underscore prev); [discriminate|].
    injection H as <- <-. exists EmptyString. repeat split. constructor.
  - simpl in H. fold (is_underscore prev) in H.
    destruct (Ascii.eqb c Py.underscore) eqn:Hc.
    + apply underscore_char in Hc. subst c.
      assert (Hprev :
                is_underscore prev = false /\
                Py.scan_digits (Some Py.underscore) acc s = Some (z, rest)).
      { destruct prev as [p|]; simpl in *; [|auto].
        destruct (Ascii.eqb p Py.underscore); [discriminate | auto]. }
      destruct Hprev as [Hp Hscan]. rewrite Hp.
      destruct (IH _ _ _ _ Hscan) as (body & -> & -> & Hb).
      simpl in Hb. destruct Hb as [d b Hd Hb].
      exists (String Py.underscore (String d b)). repeat split.
      constructor; assumption.
    + destruct (Py.PyLong_DigitValue c <? 10) eqn:Hlt.
      * assert (Hd : is_decimal_digit c = true).
        { destruct (is_decimal_digit c) eqn:E; [reflexivity|].
          apply nondigit_char in E. congruence. }
        destruct (digit_char c Hd) as (_ & _ & Hv & _).
        destruct (IH _ _ _ _ H) as (body & -> & -> & Hb).
        simpl in Hb. rewrite Hc in Hb.
        exists (String c body). split; [reflexivity|].
        split; [simpl; rewrite Hc, Hv; reflexivity|].
        destruct (is_underscore prev); constructor; assumption.
      * destruct (is_underscore prev); [discriminate|].
        injection H as <- <-. exists EmptyString. repeat split. constructor.
Qed.

Lemma long_from_string_base_inv (s : string) (z : Z) (rest : string) :
  Py.long_from_string_base s = Some (z, rest) ->
  exists body,
    s = body ++ rest /\ z = literal_value 0 body /\ digit_groups body.
Proof.
  unfold Py.long_from_string_base. destruct s as [|c s]; [discriminate|].
  destruct (Ascii.eqb c Py.underscore) eqn:Hc; [discriminate|].
  destruct (Py.scan_digits None 0 (String c s)) as [[z' rest']|] eqn:Hscan;
    [|discriminate].
  destruct (Nat.eqb_spec (String.length rest') (String.length (String c s)))
    as [|Hlen]; [discriminate|].
  intros [= <- <-].
  destruct (scan_digits_inv _ _ _ _ _ Hscan) as (body & E & -> & Hb).
  simpl in Hb. exists body. repeat split; [exact E|].
  destruct Hb as [|d b Hd Hb|d b Hd Hb].
  - simpl in E. rewrite E in Hlen. contradiction.
  - constructor; assumption.
  - simpl in E. injection E as -> _. rewrite Ascii.eqb_refl in Hc. discriminate.
Qed.

Lemma PyLong_FromString_inv (s : string) (z : Z) :
  Py.PyLong_FromString s = Some z -> int_literal s z.
Proof.
  unfold Py.PyLong_FromString.
  destruct (skip_space_split s) as (lead & Es & Hlead).
  set (s1 := Py.skip_space s) in *.
  assert (Hsign : exists sg s2,
            s1 = sign_text sg ++ s2 /\
            match s1 with
            | String "+" t => (false, t)
            | String "-" t => (true, t)
            | _ => (false, s1)
            end = (match sg with Minus => true | _ => false end, s2) /\
            (sg = NoSign -> True)).
  { destruct s1 as [|c t].
    - exists NoSign, EmptyString. auto.
    - destruct (Ascii.eqb_spec c "+") as [->|Hplus];
        [exists Plus, t; auto|].
      destruct (Ascii.eqb_spec c "-") as [->|Hminus];
        [exists Minus, t; auto|].
      exists NoSign, (String c t). repeat split.
      destruct c as [[] [] [] [] [] [] [] []]; try reflexivity; congruence. }
  destruct Hsign as (sg & s2 & E1 & -> & _).
  destruct (Py.long_from_string_base s2) as [[v rest]|] eqn:Hbase;
    [|discriminate].
  destruct (Py.skip_space rest) eqn:Hrest; [|discriminate].
  intros [= <-].
  destruct (long_from_string_base_inv _ _ _ Hbase) as (body & -> & -> & Hb).
  exists lead, sg, body, rest. rewrite Es at 1. rewrite E1.
  repeat split; try assumption.
  - apply skip_space_empty. exact Hrest.
  - destruct sg; reflexivity.
Qed.

Lemma all_digits_groups (s : string) :
  all_digits s = true ->
  groups_tail s /\ forall acc, literal_value acc s = digits_value acc s.
Proof.
  induction s as [|c s IH]; simpl.
  - intros _. split; [constructor | reflexivity].
  - intros [Hc Hs]%andb_prop. destruct (IH Hs) as [Hg Hv].
    destruct (digit_char c Hc) as (Hu & _).
    split; [constructor; assumption|].
    intros acc. rewrite Hu. apply Hv.
Qed.

(** The grammar of the specification is part of the wider one. *)
Lemma signed_decimal_literal (s : string) (z : Z) :
  signed_decimal s = Some z -> int_literal s z.
Proof.
  unfold signed_decimal.
  assert (Hsign : exists sg digits,
            s = sign_text sg ++ digits /\
            match s with
            | String "+" t => (false, t)
            | String "-" t => (true, t)
            | _ => (false, s)
            end = (match sg with Minus => true | _ => false end, digits)).
  { destruct s as [|c t].
    - exists NoSign, EmptyString. auto.
    - destruct (Ascii.eqb_spec c "+") as [->|Hplus];
        [exists Plus, t; auto|].
      destruct (Ascii.eqb_spec c "-") as [->|Hminus];
        [exists Minus, t; auto|].
      exists NoSign, (String c t). split; [reflexivity|].
      destruct c as [[] [] [] [] [] [] [] []]; try reflexivity; congruence. }
  destruct Hsign as (sg & digits & -> & ->).
  destruct digits as [|c t]; [discriminate|].
  destruct (all_digits (String c t)) eqn:Hd; [|discriminate].
  intros [= <-].
  simpl in Hd. apply andb_prop in Hd as [Hc Ht].
  destruct (all_digits_groups _ Ht) as [Hg Hv].
  destruct (digit_char c Hc) as (Hu & _).
  exists EmptyString, sg, (String c t), EmptyString.
  split; [simpl; now rewrite append_nil_r|].
  split; [reflexivity|].
  split; [constructor; assumption|].
  split; [reflexivity|].
  simpl. rewrite Hu, Hv. destruct sg; reflexivity.
Qed.

End IntLiterals.

(** ** The text of a response body is JSON *)

Section JsonText.




Lemma pos_to_uint_head (p : positive) :
  match Pos.to_uint p with
  | Nil | D0 _ => False
  | _ => True
  end.
Proof.
  pose proof (Unsigned.to_of (Pos.to_uint p)) as H.
  rewrite Unsigned.of_to in H. simpl in H.
  pose proof (Unsigned.to_uint_nonzero p) as Hz.
  unfold unorm in H.
  pose proof (nzhead_nonzero (Pos.to_uint p)) as Hnz.
  destruct (nzhead (Pos.to_uint p)) eqn:E; rewrite H; try exact I.
  - apply Hz. exact H.
  - apply (Hnz u). reflexivity.
Qed.












End JsonText.

(** ** Reading back the text of an integer *)

Section IntRepr.

Import IntGrammar.

Lemma all_digits_uint (d : uint) :
  all_digits (NilEmpty.string_of_uint d) = true.
Proof. induction d; simpl; auto. Qed.

Ltac eval_digit_value :=
  match goal with
  | |- context [digit_value ?c] =>
      let v := eval vm_compute in (digit_value c) in
      change (digit_value c) with v
  end.

Lemma digits_value_uint_acc (d : uint) (acc : positive) :
  digits_value (Z.pos acc) (NilEmpty.string_of_uint d)
  = Z.pos (Pos.of_uint_acc d acc).
Proof.
  revert acc. induction d; intros acc;
    cbn [NilEmpty.string_of_uint digits_value Pos.of_uint_acc];
    [reflexivity|..];
    rewrite <- IHd; f_equal; eval_digit_value; lia.
Qed.

Lemma digits_value_uint (d : uint) :
  digits_value 0 (NilEmpty.string_of_uint d) = Z.of_N (Pos.of_uint d).
Proof.
  induction d; cbn [NilEmpty.string_of_uint digits_value Pos.of_uint];
    [reflexivity | exact IHd |..];
    cbn [Z.of_N]; rewrite <- digits_value_uint_acc; f_equal.
Qed.

Lemma signed_decimal_int_repr (z : Z) :
  signed_decimal (Json.int_repr z) = Some z.
Proof.
  unfold Json.int_repr.
  destruct z as [|p|p]; [reflexivity| |];
    cbn [Z.to_int Pos.to_int NilZero.string_of_int];
    pose proof (pos_to_uint_head p) as Hh;
    pose proof (all_digits_uint (Pos.to_uint p)) as Hd;
    pose proof (digits_value_uint (Pos.to_uint p)) as Hv;
    rewrite Unsigned.of_to in Hv;
    unfold NilZero.string_of_uint, signed_decimal;
    destruct (Pos.to_uint p); try contradiction;
    simpl in *; rewrite Hd, Hv; reflexivity.
Qed.

(** [int(repr(z), 10) == z] *)
Lemma int_base10_int_repr (z : Z) :
  Py.int_base10 (Some (Json.int_repr z)) = Py.Returns z.
Proof.
  unfold Py.int_base10.
  now rewrite (PyLong_FromString_literal _ _
                 (signed_decimal_literal _ _ (signed_decimal_int_repr z))).
Qed.

End IntRepr.

(** ** One run of the handler *)

Section Run.

Context {G : Type} {RS : RandomSource G}.

(** The whole of a run: what [get] returns and the world it leaves, by the
    result of the parse and the two draws. *)
Lemma get_run (q : Flask.Request) (w : world (G:=G)) :
  get q w =
  match Py.int_base10 (Flask.MultiDict_get "num" (Flask.args q)) with
  | Py.Raises e =>
      (Py.Returns None, {| rng := rng w; trace := trace w ++ [EvPrint e] |})
  | Py.Returns n =>
      let d := delay_draw w in
      let e := error_draw w in
      (Py.Returns
         (Some (Flask.jsonify
                  (if e =? 0 then error_payload
                   else success_payload (n * n) (TTL + (50 + d))))),
       {| rng := snd (randint_draw 0 10 (snd (randint_draw 50 200 (rng w))));
          trace := trace w ++ [EvRandint 50 200 d;
                               EvSleep (Qmake (50 + d) 1000);
                               EvRandint 0 10 e] |})
  end.
Proof.
  unfold get, try_except, bind, ret, lift, randint, sleep, print, log,
    delay_draw, error_draw.
  destruct (Py.int_base10 _) as [n|e]; [|reflexivity].
  simpl.
  destruct (randint_draw 50 200 (rng w)) as [d g1]; simpl.
  destruct (randint_draw 0 10 g1) as [e g2]; simpl.
  rewrite <- !app_assoc; simpl.
  destruct (e =? 0); reflexivity.
Qed.

(** No exception leaves the handler. *)
Lemma get_never_raises (q : Flask.Request) (w : world (G:=G)) :
  exists r, fst (get q w) = Py.Returns r.
Proof.
  rewrite get_run. destruct (Py.int_base10 _); eexists; reflexivity.
Qed.

Lemma delay_draw_range (w : world (G:=G)) : 50 <= delay_draw w <= 200.
Proof. unfold delay_draw. apply randint_draw_range. lia. Qed.


End Run.

(** ** The handler on a valid [num] *)

Section ValidInput.

Context {G : Type} {RS : RandomSource G}.

Variable q : Flask.Request.
Variable w : world (G:=G).
Variable n : Z.
Hypothesis num_parses :
  Py.int_base10 (Flask.MultiDict_get "num" (Flask.args q)) = Py.Returns n.

Lemma get_run_valid :
  get q w =
  (Py.Returns
     (Some (Flask.jsonify
              (if error_draw w =? 0 then error_payload
               else success_payload (n * n) (TTL + (50 + delay_draw w))))),
   {| rng := snd (randint_draw 0 10 (snd (randint_draw 50 200 (rng w))));
      trace := trace w ++ [EvRandint 50 200 (delay_draw w);
                           EvSleep (Qmake (50 + delay_draw w) 1000);
                           EvRandint 0 10 (error_draw w)] |}).
Proof. rewrite get_run, num_parses. reflexivity. Qed.

(** On a success payload the error draw was not 0 and the payload is the
    one built from [n] and the delay draw. *)
Lemma success_run_inv (r : Flask.Response) (w' : world (G:=G)) :
  get q w = (Py.Returns (Some r), w') ->
  is_success_payload (Flask.get_json r) = true ->
  Flask.get_json r = success_payload (n * n) (TTL + (50 + delay_draw w)).
Proof.
  rewrite get_run_valid. intros [= <- _].
  destruct (error_draw w =? 0); simpl; [discriminate | reflexivity].
Qed.

(** C1: for a [num] that parses to the integer [n], of either sign and of
    any size, a success payload returned by the handler has [msg] equal to
    [n * n]. *)
Theorem get_success_msg_is_square (r : Flask.Response) (w' : world (G:=G)) :
  get q w = (Py.Returns (Some r), w') ->
  is_success_payload (Flask.get_json r) = true ->
  Json.lookup "msg" (Flask.get_json r) = Some (Json.Int (n * n)).
Proof.
  intros Hrun Hok. rewrite (success_run_inv r w' Hrun Hok). reflexivity.
Qed.

(** C2: in a success response [ttl(ms)] is [TTL + delay] with [TTL = 100] and
    [delay = 50 + d], where [d] is the integer that [randint(50, 200)]
    returned in this run, between 50 and 200; so [ttl(ms)] is at least 150 and
    at most 350. *)
Theorem get_success_ttl_is_TTL_plus_delay
    (r : Flask.Response) (w' : world (G:=G)) :
  get q w = (Py.Returns (Some r), w') ->
  is_success_payload (Flask.get_json r) = true ->
  exists d e delay,
    trace w' = (trace w ++ [EvRandint 50 200 d;
                            EvSleep (Qmake delay 1000);
                            EvRandint 0 10 e])%list /\
    50 <= d <= 200 /\
    delay = 50 + d /\
    TTL = 100 /\
    Json.lookup "ttl(ms)" (Flask.get_json r) = Some (Json.Int (TTL + delay)) /\
    150 <= TTL + delay <= 350.
Proof.
  intros Hrun Hok.
  exists (delay_draw w), (error_draw w), (50 + delay_draw w).
  pose proof (delay_draw_range w) as Hd.
  rewrite (success_run_inv r w' Hrun Hok).
  rewrite get_run_valid in Hrun. injection Hrun as _ <-.
  unfold TTL. cbn [trace].
  repeat split; try reflexivity; lia.
Qed.

(** C10: in a success response [ttl(ms)] lies between 200 and 350. *)
Theorem get_success_ttl_between_200_and_350
    (r : Flask.Response) (w' : world (G:=G)) :
  get q w = (Py.Returns (Some r), w') ->
  is_success_payload (Flask.get_json r) = true ->
  exists ttl,
    Json.lookup "ttl(ms)" (Flask.get_json r) = Some (Json.Int ttl) /\
    200 <= ttl <= 350.
Proof.
  intros Hrun Hok. exists (TTL + (50 + delay_draw w)).
  rewrite (success_run_inv r w' Hrun Hok).
  pose proof (delay_draw_range w). unfold TTL. split; [reflexivity | lia].
Qed.



End ValidInput.

(** ** Parse failure, order of the steps, determinism *)

Section AnyInput.

Context {G : Type} {RS : RandomSource G}.

(** C4: when parsing [num] raises (the parameter is missing or its text is
    no integer), the exception does not leave the handler: the handler
    prints it and ends without a response, having neither drawn nor
    slept. *)
Theorem get_parse_failure_is_swallowed
    (q : Flask.Request) (w : world (G:=G)) (e : Py.exn) :
  Py.int_base10 (Flask.MultiDict_get "num" (Flask.args q)) = Py.Raises e ->
  get q w =
  (Py.Returns None, {| rng := rng w; trace := trace w ++ [EvPrint e] |}).
Proof. intros H. rewrite get_run, H. reflexivity. Qed.

(** The parse raises exactly when the parameter is missing or its text is
    not accepted. *)
Lemma int_base10_raises (x : option string) (e : Py.exn) :
  Py.int_base10 x = Py.Raises e <->
  (x = None /\ e = Py.TypeError_int_nonstring_base) \/
  (exists s, x = Some s /\ Py.PyLong_FromString s = None /\
             e = Py.ValueError_invalid_literal s).
Proof.
  unfold Py.int_base10. destruct x as [s|].
  - destruct (Py.PyLong_FromString s) eqn:E; split.
    + discriminate.
    + intros [[? _]|(s' & [= <-] & H & _)]; congruence.
    + intros [= <-]. right. exists s. auto.
    + intros [[? _]|(s' & [= <-] & _ & ->)]; [discriminate | reflexivity].
  - split.
    + intros [= <-]. left. auto.
    + intros [[_ ->]|(s' & ? & _)]; [reflexivity | discriminate].
Qed.


End AnyInput.

(** C9: the response is a function of the value of [num] and of the two
    draws: two runs, whatever their random sources and their worlds, that
    read the same [num] and draw the same two integers return the same
    thing. *)
Theorem get_response_deterministic
    {G1 G2 : Type} {RS1 : RandomSource G1} {RS2 : RandomSource G2}
    (q1 q2 : Flask.Request) (w1 : world (G:=G1)) (w2 : world (G:=G2)) :
  Flask.MultiDict_get "num" (Flask.args q1) =
  Flask.MultiDict_get "num" (Flask.args q2) ->
  delay_draw w1 = delay_draw w2 ->
  error_draw w1 = error_draw w2 ->
  fst (get q1 w1) = fst (get q2 w2).
Proof.
  intros Hnum Hd He. rewrite !get_run, Hnum.
  destruct (Py.int_base10 _); simpl; [|reflexivity].
  now rewrite Hd, He.
Qed.

(** ** What the parse step accepts *)



Lemma int_base10_accepts_underscores :
  IntGrammar.signed_decimal "1_000" = None /\
  Py.int_base10 (Some "1_000") = Py.Returns 1000.
Proof. split; reflexivity. Qed.


(** ** The claims on runs with a scripted random source *)

Lemma get_success_msg_is_square_witness :
  Json.lookup "msg" (success_payload 9 270) = Some (Json.Int (-3 * -3)).
Proof.
  apply (get_success_msg_is_square
           (request_num "-3") (scripted_world [120; 7]) (-3) eq_refl
           (Flask.jsonify (success_payload 9 270))
           {| rng := []; trace := [EvRandint 50 200 120;
                                   EvSleep (Qmake 170 1000);
                                   EvRandint 0 10 7] |});
    reflexivity.
Defined.

Lemma get_success_ttl_is_TTL_plus_delay_witness :
  exists d e delay,
    [EvRandint 50 200 120; EvSleep (Qmake 170 1000); EvRandint 0 10 7]
    = [EvRandint 50 200 d; EvSleep (Qmake delay 1000); EvRandint 0 10 e] /\
    50 <= d <= 200 /\
    delay = 50 + d /\
    TTL = 100 /\
    Json.lookup "ttl(ms)" (success_payload 9 270)
    = Some (Json.Int (TTL + delay)) /\
    150 <= TTL + delay <= 350.
Proof.
  apply (get_success_ttl_is_TTL_plus_delay
           (request_num "-3") (scripted_world [120; 7]) (-3) eq_refl
           (Flask.jsonify (success_payload 9 270))
           {| rng := []; trace := [EvRandint 50 200 120;
                                   EvSleep (Qmake 170 1000);
                                   EvRandint 0 10 7] |});
    reflexivity.
Defined.

Lemma get_success_ttl_between_200_and_350_witness :
  exists ttl,
    Json.lookup "ttl(ms)" (success_payload 25 200) = Some (Json.Int ttl) /\
    200 <= ttl <= 350.
Proof.
  apply (get_success_ttl_between_200_and_350
           (request_num "5") (scripted_world [50; 10]) 5 eq_refl
           (Flask.jsonify (success_payload 25 200))
           {| rng := []; trace := [EvRandint 50 200 50;
                                   EvSleep (Qmake 100 1000);
                                   EvRandint 0 10 10] |});
    reflexivity.
Defined.



Lemma get_parse_failure_is_swallowed_witness :
  get (request_num "abc") (scripted_world [120; 0])
  = (Py.Returns None,
     {| rng := [120; 0];
        trace := [EvPrint (Py.ValueError_invalid_literal "abc")] |}).
Proof.
  apply (get_parse_failure_is_swallowed
           (request_num "abc") (scripted_world [120; 0])
           (Py.ValueError_invalid_literal "abc")).
  reflexivity.
Defined.

Lemma get_response_deterministic_witness :
  fst (get (request_num "5") (scripted_world [120; 3; 99]))
  = fst (get {| Flask.args := [("x", "1"); ("num", "5"); ("num", "6")] |}
             {| rng := [120; 3];
                trace := [EvPrint Py.TypeError_int_nonstring_base] |}).
Proof.
  apply (get_response_deterministic
           (request_num "5")
           {| Flask.args := [("x", "1"); ("num", "5"); ("num", "6")] |}
           (scripted_world [120; 3; 99])
           {| rng := [120; 3];
              trace := [EvPrint Py.TypeError_int_nonstring_base] |});
    reflexivity.
Defined.

(** ** Examples *)

Example squareme_5 :
  get (request_num "5") (scripted_world [120; 3])
  = (Py.Returns (Some (Flask.jsonify (success_payload 25 270))),
     {| rng := [];
        trace := [EvRandint 50 200 120; EvSleep (Qmake 170 1000);
                  EvRandint 0 10 3] |}).
Proof. reflexivity. Qed.

Example squareme_minus_3_body :
  option_map Flask.get_data
    (match fst (get (request_num "-3") (scripted_world [200; 10])) with
     | Py.Returns r => r
     | Py.Raises _ => None
     end)
  = Some (Json.dumps (success_payload 9 350) ++ String (ascii_of_N 10) "").
Proof. reflexivity. Qed.

Example squareme_error :
  fst (get (request_num "5") (scripted_world [50; 0]))
  = Py.Returns (Some (Flask.jsonify error_payload)).
Proof. reflexivity. Qed.

Example squareme_zero_and_large :
  map (fun s => fst (get (request_num s) (scripted_world [50; 1])))
      ["0"; "-0"; "-100000000000000000000"]
  = map (fun m => Py.Returns (Some (Flask.jsonify (success_payload m 200))))
      [0; 0; 10000000000000000000000000000000000000000].
Proof. reflexivity. Qed.

Example squareme_missing_num :
  get {| Flask.args := [("n", "5")] |} (scripted_world [120; 3])
  = (Py.Returns None,
     {| rng := [120; 3];
        trace := [EvPrint Py.TypeError_int_nonstring_base] |}).
Proof. reflexivity. Qed.

(** Both ends of the interval of C10 are reached. *)
Example ttl_200_and_350_reached :
  fst (get (request_num "1") (scripted_world [50; 1]))
  = Py.Returns (Some (Flask.jsonify (success_payload 1 200))) /\
  fst (get (request_num "1") (scripted_world [200; 1]))
  = Py.Returns (Some (Flask.jsonify (success_payload 1 350))).
Proof. split; reflexivity. Qed.

(** Every pair of draws within the two intervals is the pair of draws of
    some run. *)
Lemma scripted_draws (d e : Z) (rest : list Z) :
  50 <= d <= 200 -> 0 <= e <= 10 ->
  delay_draw (scripted_world (d :: e :: rest)) = d /\
  error_draw (scripted_world (d :: e :: rest)) = e.
Proof. intros Hd He. unfold delay_draw, error_draw. simpl. lia. Qed.

(** Of the 151 * 11 pairs of draws, one in eleven ends in the error
    payload. *)
Example error_outcomes_one_in_eleven :
  List.length (outcomes "5") = 1661%nat /\
  List.length (filter is_error_outcome (outcomes "5")) = 151%nat /\
  (11 * 151 = 1661)%nat.
Proof. vm_compute. repeat split. Qed.

(** * Further properties of the handler *)

(** ** The query string *)

Section QueryParameters.

Lemma MultiDict_get_absent (key : string) (items : list (string * string)) :
  has_key key items = false -> Flask.MultiDict_get key items = None.
Proof.
  induction items as [|[k v] items IH]; simpl; [reflexivity|].
  destruct (String.eqb k key); simpl; [discriminate | exact IH].
Qed.

Lemma MultiDict_get_first (key v : string) (pre post : list (string * string)) :
  has_key key pre = false ->
  Flask.MultiDict_get key (pre ++ (key, v) :: post) = Some v.
Proof.
  induction pre as [|[k x] pre IH]; simpl.
  - now rewrite String.eqb_refl.
  - destruct (String.eqb k key); simpl; [discriminate | exact IH].
Qed.

End QueryParameters.

(** ** Text the parse step rejects *)

Section RejectedText.

Import IntGrammar.

Lemma has_digit_append (a b : string) :
  has_digit (a ++ b) = has_digit a || has_digit b.
Proof.
  induction a as [|c a IH]; simpl; [reflexivity|].
  now rewrite IH, orb_assoc.
Qed.

Lemma all_literal_chars_append (a b : string) :
  all_literal_chars (a ++ b) = all_literal_chars a && all_literal_chars b.
Proof.
  induction a as [|c a IH]; simpl; [reflexivity|].
  now rewrite IH, andb_assoc.
Qed.

Lemma all_space_literal_chars (s : string) :
  all_space s = true -> all_literal_chars s = true.
Proof.
  induction s as [|c s IH]; simpl; [reflexivity|].
  intros [Hc Hs]%andb_prop. unfold literal_char. rewrite Hc, (IH Hs).
  reflexivity.
Qed.

Lemma digit_literal_char (c : ascii) :
  is_decimal_digit c = true -> literal_char c = true.
Proof.
  intros H. unfold literal_char. rewrite H.
  now rewrite !orb_true_r.
Qed.

Lemma groups_tail_literal_chars (s : string) :
  groups_tail s -> all_literal_chars s = true.
Proof.
  induction 1 as [|c s Hc _ IH|c s Hc _ IH]; simpl.
  - reflexivity.
  - now rewrite (digit_literal_char c Hc), IH.
  - rewrite (digit_literal_char c Hc), IH. reflexivity.
Qed.

Lemma int_literal_chars (s : string) (z : Z) :
  int_literal s z -> has_digit s = true /\ all_literal_chars s = true.
Proof.
  intros (lead & sg & body & trail & -> & Hl & Hb & Ht & _).
  destruct Hb as [c b Hc Hb]. split.
  - rewrite !has_digit_append. simpl. rewrite Hc. now rewrite !orb_true_r.
  - rewrite !all_literal_chars_append. simpl.
    rewrite (all_space_literal_chars _ Hl), (all_space_literal_chars _ Ht),
      (digit_literal_char c Hc), (groups_tail_literal_chars _ Hb).
    destruct sg; reflexivity.
Qed.

Lemma int_base10_rejects (s : string) :
  has_digit s = false \/ all_literal_chars s = false ->
  Py.int_base10 (Some s) = Py.Raises (Py.ValueError_invalid_literal s).
Proof.
  intros H. unfold Py.int_base10.
  destruct (Py.PyLong_FromString s) as [z|] eqn:E; [|reflexivity].
  apply PyLong_FromString_inv, int_literal_chars in E.
  destruct E as [Hd Hc], H as [H|H]; congruence.
Qed.

End RejectedText.

(** ** Requests without a response, equal runs, sleeping *)

Section MoreOnRuns.

Context {G : Type} {RS : RandomSource G}.

(** X1: a request whose query string has no parameter named [num] gets no
    response: [int(None, 10)] raises a [TypeError], which the handler
    prints; it returns [None] and the random source is left as it was. *)
Theorem get_without_num_parameter (q : Flask.Request) (w : world (G:=G)) :
  has_key "num" (Flask.args q) = false ->
  get q w =
  (Py.Returns None,
   {| rng := rng w;
      trace := trace w ++ [EvPrint Py.TypeError_int_nonstring_base] |}).
Proof.
  intros H. rewrite get_run, (MultiDict_get_absent _ _ H). reflexivity.
Qed.

(** X2: an ASCII [num] without any digit (empty, blank, a lone sign) gets no
    response: the handler prints the [ValueError] naming that text and
    returns [None], without drawing or sleeping. *)
Theorem get_num_without_digit
    (q : Flask.Request) (w : world (G:=G)) (s : string) :
  Flask.MultiDict_get "num" (Flask.args q) = Some s ->
  IntGrammar.ascii_text s = true ->
  has_digit s = false ->
  get q w =
  (Py.Returns None,
   {| rng := rng w;
      trace := trace w ++ [EvPrint (Py.ValueError_invalid_literal s)] |}).
Proof.
  intros Hq _ Hd. rewrite get_run, Hq, int_base10_rejects by (left; exact Hd).
  reflexivity.
Qed.

(** X3: an ASCII [num] holding a character that is neither whitespace, nor
    a sign, nor a digit, nor an underscore (a decimal point, an exponent, a
    hexadecimal prefix, a letter) gets no response: the handler prints the
    [ValueError] naming that text and returns [None]. *)
Theorem get_num_with_foreign_character
    (q : Flask.Request) (w : world (G:=G)) (s : string) :
  Flask.MultiDict_get "num" (Flask.args q) = Some s ->
  IntGrammar.ascii_text s = true ->
  all_literal_chars s = false ->
  get q w =
  (Py.Returns None,
   {| rng := rng w;
      trace := trace w ++ [EvPrint (Py.ValueError_invalid_literal s)] |}).
Proof.
  intros Hq _ Hc. rewrite get_run, Hq, int_base10_rejects by (right; exact Hc).
  reflexivity.
Qed.

(** X4: the handler reads the first parameter named [num] and nothing else
    of the query string: parameters of other names before it and any
    parameters after it, further [num] included, change neither what the
    handler returns nor its effects. *)
Theorem get_reads_first_num
    (pre post : list (string * string)) (s : string) (w : world (G:=G)) :
  has_key "num" pre = false ->
  get {| Flask.args := pre ++ ("num", s) :: post |} w = get (request_num s) w.
Proof.
  intros H. rewrite !get_run. cbn [Flask.args request_num].
  rewrite (MultiDict_get_first "num" s pre post H). reflexivity.
Qed.

(** X5: the text of [num] matters through the magnitude of its integer
    only: two requests whose [num] parse to integers of the same absolute
    value ([5], [+5], [005], [-5], a padded [5]) run alike from the same
    world, returning the same thing with the same effects. *)
Theorem get_same_magnitude_same_run
    (q1 q2 : Flask.Request) (w : world (G:=G)) (n1 n2 : Z) :
  Py.int_base10 (Flask.MultiDict_get "num" (Flask.args q1)) = Py.Returns n1 ->
  Py.int_base10 (Flask.MultiDict_get "num" (Flask.args q2)) = Py.Returns n2 ->
  Z.abs n1 = Z.abs n2 ->
  get q1 w = get q2 w.
Proof.
  intros H1 H2 Habs. rewrite !get_run, H1, H2.
  replace (n2 * n2) with (n1 * n1); [reflexivity|].
  rewrite <- (Z.abs_square n1), <- (Z.abs_square n2), Habs. reflexivity.
Qed.

(** X6: in a success response [msg] is never negative, is at least the
    magnitude of the integer sent, and is 0 only for 0. *)
Theorem get_success_msg_nonnegative
    (q : Flask.Request) (w : world (G:=G)) (n : Z)
    (r : Flask.Response) (w' : world (G:=G)) :
  Py.int_base10 (Flask.MultiDict_get "num" (Flask.args q)) = Py.Returns n ->
  get q w = (Py.Returns (Some r), w') ->
  is_success_payload (Flask.get_json r) = true ->
  exists m,
    Json.lookup "msg" (Flask.get_json r) = Some (Json.Int m) /\
    0 <= m /\ Z.abs n <= m /\ (m = 0 <-> n = 0).
Proof.
  intros Hn Hrun Hok. exists (n * n).
  rewrite (success_run_inv q w n Hn r w' Hrun Hok).
  split; [reflexivity|]. nia.
Qed.

(** X7: a run sleeps at most once: once, for at least a tenth and at most a
    quarter of a second, when [num] parses, and not at all when it does
    not. *)
Theorem get_sleeps_at_most_once (q : Flask.Request) (w : world (G:=G)) :
  exists added,
    trace (snd (get q w)) = (trace w ++ added)%list /\
    match Py.int_base10 (Flask.MultiDict_get "num" (Flask.args q)) with
    | Py.Returns _ =>
        exists secs,
          sleeps added = [secs] /\ (1 # 10 <= secs)%Q /\ (secs <= 1 # 4)%Q
    | Py.Raises _ => sleeps added = []
    end.
Proof.
  rewrite get_run.
  destruct (Py.int_base10 _) as [n|e]; cbn [snd trace].
  - eexists. split; [reflexivity|].
    exists (Qmake (50 + delay_draw w) 1000).
    pose proof (delay_draw_range w) as Hd.
    split; [reflexivity|]. unfold Qle. cbn [Qnum Qden]. lia.
  - eexists. split; reflexivity.
Qed.

(** X8: the text of [msg] in a success response is itself accepted by the
    parse step, as the integer [n * n]: a client can send it back as
    [num]. *)
Theorem get_success_msg_text_reads_back
    (q : Flask.Request) (w : world (G:=G)) (n : Z)
    (r : Flask.Response) (w' : world (G:=G)) :
  Py.int_base10 (Flask.MultiDict_get "num" (Flask.args q)) = Py.Returns n ->
  get q w = (Py.Returns (Some r), w') ->
  is_success_payload (Flask.get_json r) = true ->
  exists msg,
    Json.lookup "msg" (Flask.get_json r) = Some msg /\
    Py.int_base10 (Some (Json.dumps msg)) = Py.Returns (n * n).
Proof.
  intros Hn Hrun Hok. exists (Json.Int (n * n)).
  rewrite (success_run_inv q w n Hn r w' Hrun Hok).
  split; [reflexivity|]. apply int_base10_int_repr.
Qed.

End MoreOnRuns.

(** ** Counting the error responses *)

Section Counting.

Lemma map_flat_map_comm {A B C : Type} (f : B -> C) (g : A -> list B)
    (l : list A) :
  map f (flat_map g l) = flat_map (fun x => map f (g x)) l.
Proof.
  induction l as [|x l IH]; simpl; [reflexivity|].
  now rewrite map_app, IH.
Qed.

Lemma length_filter_map {A : Type} (f : A -> bool) (l : list A) :
  List.length (filter f l) = List.length (filter (fun b => b) (map f l)).
Proof.
  induction l as [|x l IH]; simpl; [reflexivity|].
  destruct (f x); simpl; now rewrite IH.
Qed.

Lemma scripted_error_outcome (s : string) (n d e : Z) :
  Py.int_base10 (Some s) = Py.Returns n ->
  is_error_outcome (fst (get (request_num s) (scripted_world [d; e])))
  = (Z.max 0 (Z.min 10 e) =? 0).
Proof.
  intros Hn. rewrite get_run. cbn [request_num Flask.args Flask.MultiDict_get].
  rewrite String.eqb_refl, Hn. cbn [fst].
  change (error_draw (scripted_world [d; e])) with (Z.max 0 (Z.min 10 e)).
  destruct (Z.max 0 (Z.min 10 e) =? 0); reflexivity.
Qed.

Lemma error_flags (s : string) (n : Z) :
  Py.int_base10 (Some s) = Py.Returns n ->
  map is_error_outcome (outcomes s)
  = flat_map (fun d : Z => map (fun e => Z.max 0 (Z.min 10 e) =? 0)
                               (closed_interval 0 10))
             (closed_interval 50 200).
Proof.
  intros Hn. unfold outcomes. rewrite map_flat_map_comm.
  apply flat_map_ext. intros d. rewrite map_map.
  apply map_ext. intros e. exact (scripted_error_outcome s n d e Hn).
Qed.

(** X9: for every [num] that parses, of the 151 * 11 pairs of draws, the
    first from 50 to 200 and the second from 0 to 10, exactly 151, one in
    eleven, end in the error payload. *)
Theorem error_outcomes_count (s : string) (n : Z) :
  Py.int_base10 (Some s) = Py.Returns n ->
  List.length (outcomes s) = 1661%nat /\
  List.length (filter is_error_outcome (outcomes s)) = 151%nat /\
  (11 * List.length (filter is_error_outcome (outcomes s))
   = List.length (outcomes s))%nat.
Proof.
  intros Hn.
  assert (Hall : List.length (outcomes s) = 1661%nat).
  { rewrite <- (length_map is_error_outcome), (error_flags s n Hn).
    vm_compute. reflexivity. }
  assert (Herr : List.length (filter is_error_outcome (outcomes s))
                 = 151%nat).
  { rewrite length_filter_map, (error_flags s n Hn). vm_compute.
    reflexivity. }
  rewrite Hall, Herr. repeat split.
Qed.

End Counting.

(** ** The further properties on runs with a scripted random source *)

Lemma get_without_num_parameter_witness :
  get {| Flask.args := [("n", "5"); ("Num", "7")] |} (scripted_world [120; 3])
  = (Py.Returns None,
     {| rng := [120; 3];
        trace := [EvPrint Py.TypeError_int_nonstring_base] |}).
Proof.
  apply (get_without_num_parameter
           {| Flask.args := [("n", "5"); ("Num", "7")] |}
           (scripted_world [120; 3])).
  reflexivity.
Defined.

Lemma get_num_without_digit_witness :
  get (request_num " - ") (scripted_world [120; 3])
  = (Py.Returns None,
     {| rng := [120; 3];
        trace := [EvPrint (Py.ValueError_invalid_literal " - ")] |}).
Proof.
  apply (get_num_without_digit
           (request_num " - ") (scripted_world [120; 3]) " - ");
    reflexivity.
Defined.

Lemma get_num_with_foreign_character_witness :
  get (request_num "1.5") (scripted_world [120; 3])
  = (Py.Returns None,
     {| rng := [120; 3];
        trace := [EvPrint (Py.ValueError_invalid_literal "1.5")] |}).
Proof.
  apply (get_num_with_foreign_character
           (request_num "1.5") (scripted_world [120; 3]) "1.5");
    reflexivity.
Defined.

Lemma get_reads_first_num_witness :
  get {| Flask.args := [("x", "1"); ("Num", "9")]
                       ++ ("num", "5") :: [("num", "6"); ("y", "2")] |}
      (scripted_world [120; 3])
  = get (request_num "5") (scripted_world [120; 3]).
Proof.
  apply (get_reads_first_num
           [("x", "1"); ("Num", "9")] [("num", "6"); ("y", "2")] "5"
           (scripted_world [120; 3])).
  reflexivity.
Defined.

Lemma get_same_magnitude_same_run_witness :
  get (request_num "5") (scripted_world [120; 3])
  = get (request_num " -0_5 ") (scripted_world [120; 3]).
Proof.
  apply (get_same_magnitude_same_run
           (request_num "5") (request_num " -0_5 ")
           (scripted_world [120; 3]) 5 (-5));
    reflexivity.
Defined.

Lemma get_success_msg_nonnegative_witness :
  exists m,
    Json.lookup "msg" (success_payload 9 270) = Some (Json.Int m) /\
    0 <= m /\ Z.abs (-3) <= m /\ (m = 0 <-> -3 = 0).
Proof.
  apply (get_success_msg_nonnegative
           (request_num "-3") (scripted_world [120; 7]) (-3)
           (Flask.jsonify (success_payload 9 270))
           {| rng := []; trace := [EvRandint 50 200 120;
                                   EvSleep (Qmake 170 1000);
                                   EvRandint 0 10 7] |});
    reflexivity.
Defined.

Lemma get_success_msg_text_reads_back_witness :
  exists msg,
    Json.lookup "msg" (success_payload 9 270) = Some msg /\
    Py.int_base10 (Some (Json.dumps msg)) = Py.Returns (-3 * -3).
Proof.
  apply (get_success_msg_text_reads_back
           (request_num "-3") (scripted_world [120; 7]) (-3)
           (Flask.jsonify (success_payload 9 270))
           {| rng := []; trace := [EvRandint 50 200 120;
                                   EvSleep (Qmake 170 1000);
                                   EvRandint 0 10 7] |});
    reflexivity.
Defined.

Lemma error_outcomes_count_witness :
  List.length (outcomes "-3") = 1661%nat /\
  List.length (filter is_error_outcome (outcomes "-3")) = 151%nat /\
  (11 * List.length (filter is_error_outcome (outcomes "-3"))
   = List.length (outcomes "-3"))%nat.
Proof.
  apply (error_outcomes_count "-3" (-3)). reflexivity.
Defined.
